(** * RCAIDE tutorial 13: [plot_mission]

    A shallow embedding of the notebook cell

    <<
    def plot_mission(nexus):

        results   = nexus.results.base

        # Plot Aerodynamic Coefficients
        plot_aerodynamic_coefficients(results)

        # Drag Components
        plot_drag_components(results)

        # Plot Altitude, sfc, vehicle weight
        plot_altitude_sfc_weight(results)

        return
    >>

    of [docs/source/tutorials/Optimize/Tutorial_13_Plot_Mission.ipynb].

    The function is written in a small monad of Python operations (attribute
    reads and writes, global name loads and stores, calls, [raise],
    [try]/[except]).  The objects it is given and the three plotting routines
    of [RCAIDE.Library.Plots] are not part of these sources: they are the
    fields of an environment [Env], over which every statement is
    quantified. *)

From stdpp Require Import base strings list gmap.

Set Default Proof Using "Type".

(** ** Values, exceptions and operations *)

(** The three routines that [from RCAIDE.Library.Plots import *] brings into
    the notebook and that [plot_mission] names. *)
Inductive routine : Type :=
| plot_aerodynamic_coefficients
| plot_drag_components
| plot_altitude_sfc_weight.

(** Python values, as far as the cell can tell them apart: [None], a
    reference to an object, a library function object. *)
Inductive value : Type :=
| VNone
| VObj (l : nat)
| VFun (f : routine).

(** An exception: its class name and its message. *)
Record exn : Type := Exn { exn_class : string; exn_msg : string }.

#[global] Instance routine_eq_dec : EqDecision routine.
Proof. solve_decision. Defined.
#[global] Instance value_eq_dec : EqDecision value.
Proof. solve_decision. Defined.
#[global] Instance exn_eq_dec : EqDecision exn.
Proof. solve_decision. Defined.

(** The name under which each routine is bound in the module namespace. *)
Definition routine_name (f : routine) : string :=
  match f with
  | plot_aerodynamic_coefficients => "plot_aerodynamic_coefficients"
  | plot_drag_components => "plot_drag_components"
  | plot_altitude_sfc_weight => "plot_altitude_sfc_weight"
  end.

(** The primitive operations a function body performs on its surroundings. *)
Inductive event : Type :=
| GetAttr (o : value) (name : string)              (* o.name            *)
| SetAttr (o : value) (name : string) (v : value)  (* o.name = v        *)
| LoadGlobal (name : string)                       (* name              *)
| StoreGlobal (name : string) (v : value)          (* global name; name = v *)
| Call (callee : value) (arg : value).             (* callee(arg)       *)

#[global] Instance event_eq_dec : EqDecision event.
Proof. solve_decision. Defined.

(** Function bodies: a finite tree of operations.  [Do ev k] performs [ev]
    and continues with [k] on its value; [Try body handler k] is
    [try: body / except Exception as e: handler e] followed by [k]. *)
Inductive py : Type :=
| Ret (v : value)
| Raise (e : exn)
| Do (ev : event) (k : value → py)
| Try (body : py) (handler : exn → py) (k : value → py).

Fixpoint bind (p : py) (f : value → py) : py :=
  match p with
  | Ret v => f v
  | Raise e => Raise e
  | Do ev k => Do ev (λ v, bind (k v) f)
  | Try body handler k => Try body handler (λ v, bind (k v) f)
  end.

Definition getattr (o : value) (name : string) : py := Do (GetAttr o name) Ret.
Definition setattr (o : value) (name : string) (v : value) : py :=
  Do (SetAttr o name v) Ret.
Definition load_global (name : string) : py := Do (LoadGlobal name) Ret.
Definition store_global (name : string) (v : value) : py :=
  Do (StoreGlobal name v) Ret.
Definition call (callee arg : value) : py := Do (Call callee arg) Ret.

(** [f(arg)] with [f] a global name: the name is looked up, then called. *)
Definition call_global (name : string) (arg : value) : py :=
  bind (load_global name) (λ callee, call callee arg).

Declare Scope py_scope.
Delimit Scope py_scope with py.
Bind Scope py_scope with py.
Notation "x <- p ;; q" := (bind p (λ x, q))
  (at level 100, p at next level, right associativity) : py_scope.
Notation "'exec' p ;; q" := (bind p (λ _, q))
  (at level 100, p at next level, right associativity) : py_scope.

(** ** The notebook cell *)

Definition plot_mission (nexus : value) : py :=
  (nexus_results <- getattr nexus "results" ;;
   results <- getattr nexus_results "base" ;;
   exec call_global "plot_aerodynamic_coefficients" results ;;
   exec call_global "plot_drag_components" results ;;
   exec call_global "plot_altitude_sfc_weight" results ;;
   Ret VNone)%py.

(** ** Running a body *)

(** What an attribute read answers: a value, an exception, or nothing at
    all.  A read consults the world and leaves it as it is. *)
Inductive answer : Type :=
| Value (v : value)
| Error (e : exn)
| Hang.

(** How an operation that may change the state [S] ends. *)
Inductive outcome (S : Type) : Type :=
| Returns (v : value) (s : S)
| Raises (e : exn) (s : S)
| Diverges.
Arguments Returns {S} v s.
Arguments Raises {S} e s.
Arguments Diverges {S}.

(** The surroundings of the cell: the objects it is handed and the
    plotting library. *)
Class Env : Type := {
  world : Type;
  attr_read : value → string → world → answer;
  attr_write : value → string → value → world → outcome world;
  ext_call : routine → value → world → outcome world;
}.

Definition NameError (name : string) : exn :=
  Exn "NameError" ("name '" +:+ name +:+ "' is not defined").
Definition TypeError_not_callable : exn :=
  Exn "TypeError" "object is not callable".

Section Run.
Context `{E : Env}.

(** The module namespace of the notebook, and the world outside it. *)
Definition state : Type := gmap string value * world.

Definition with_globals (g : gmap string value) (o : outcome world)
  : outcome state :=
  match o with
  | Returns v w => Returns v (g, w)
  | Raises e w => Raises e (g, w)
  | Diverges => Diverges
  end.

Definition handle (ev : event) (s : state) : outcome state :=
  let '(g, w) := s in
  match ev with
  | GetAttr o name =>
      match attr_read o name w with
      | Value v => Returns v s
      | Error e => Raises e s
      | Hang => Diverges
      end
  | SetAttr o name v => with_globals g (attr_write o name v w)
  | LoadGlobal name =>
      match g !! name with
      | Some v => Returns v s
      | None => Raises (NameError name) s
      end
  | StoreGlobal name v => Returns VNone (<[name := v]> g, w)
  | Call (VFun f) arg => with_globals g (ext_call f arg w)
  | Call _ _ => Raises TypeError_not_callable s
  end.

(** [run p s] is the list of operations performed, in order, and how the
    body ends.  An operation that raises or hangs is the last one. *)
Fixpoint run (p : py) (s : state) : list event * outcome state :=
  match p with
  | Ret v => ([], Returns v s)
  | Raise e => ([], Raises e s)
  | Do ev k =>
      match handle ev s with
      | Returns v s' => let '(t, o) := run (k v) s' in (ev :: t, o)
      | Raises e s' => ([ev], Raises e s')
      | Diverges => ([ev], Diverges)
      end
  | Try body handler k =>
      match run body s with
      | (t, Returns v s') => let '(t', o) := run (k v) s' in (t ++ t', o)
      | (t, Raises e s') =>
          match run (handler e) s' with
          | (t', Returns v s'') =>
              let '(t'', o) := run (k v) s'' in (t ++ t' ++ t'', o)
          | (t', o) => (t ++ t', o)
          end
      | (t, Diverges) => (t, Diverges)
      end
  end.
End Run.

(** ** What the cell is expected to do *)

(** The plotting routines, in the order of the cell. *)
Definition plot_routines : list routine :=
  [plot_aerodynamic_coefficients; plot_drag_components;
   plot_altitude_sfc_weight].

(** The three plotting calls on one results object. *)
Definition expected_calls (results : value) : list (routine * value) :=
  (λ f, (f, results)) <$> plot_routines.

(** The library calls found in a list of operations. *)
Definition plot_call (ev : event) : option (routine * value) :=
  match ev with
  | Call (VFun f) arg => Some (f, arg)
  | _ => None
  end.
Definition plot_calls (t : list event) : list (routine * value) :=
  omap plot_call t.

Definition is_call (ev : event) : bool :=
  match ev with Call _ _ => true | _ => false end.
Definition is_attr_read (ev : event) : bool :=
  match ev with GetAttr _ _ => true | _ => false end.
(** Operations that assign: [o.name = v] and [global name; name = v]. *)
Definition is_store (ev : event) : bool :=
  match ev with SetAttr _ _ _ | StoreGlobal _ _ => true | _ => false end.

(** The notebook's import cell has run: each routine's name is bound to the
    library's function. *)
Definition imports_bound (g : gmap string value) : Prop :=
  ∀ f, g !! routine_name f = Some (VFun f).

(** Two namespaces that bind the three names alike. *)
Definition same_imports (g1 g2 : gmap string value) : Prop :=
  ∀ f, g1 !! routine_name f = g2 !! routine_name f.

(** The shape of an operation, whatever values it is applied to. *)
Inductive op : Type :=
| OpGetAttr (name : string)
| OpSetAttr (name : string)
| OpLoadGlobal (name : string)
| OpStoreGlobal (name : string)
| OpCall.

Definition op_of (ev : event) : op :=
  match ev with
  | GetAttr _ name => OpGetAttr name
  | SetAttr _ name _ => OpSetAttr name
  | LoadGlobal name => OpLoadGlobal name
  | StoreGlobal name _ => OpStoreGlobal name
  | Call _ _ => OpCall
  end.

Definition op_is_store (o : op) : bool :=
  match o with OpSetAttr _ | OpStoreGlobal _ => true | _ => false end.
Definition op_is_store_global (o : op) : bool :=
  match o with OpStoreGlobal _ => true | _ => false end.

(** [straight_line ops p]: whatever the operations answer, [p] performs
    operations of the shapes [ops], in this order, and then returns; it has
    no [raise], no [try] and no choice between two continuations. *)
Inductive straight_line : list op → py → Prop :=
| straight_ret v : straight_line [] (Ret v)
| straight_do ev k ops :
    (∀ v, straight_line ops (k v)) →
    straight_line (op_of ev :: ops) (Do ev k).

(** The operations of [plot_mission], in program order. *)
Definition plot_mission_ops : list op :=
  [OpGetAttr "results"; OpGetAttr "base";
   OpLoadGlobal "plot_aerodynamic_coefficients"; OpCall;
   OpLoadGlobal "plot_drag_components"; OpCall;
   OpLoadGlobal "plot_altitude_sfc_weight"; OpCall].

(** [p] has no [raise] statement and no [try] block. *)
Inductive raise_free : py → Prop :=
| raise_free_ret v : raise_free (Ret v)
| raise_free_do ev k : (∀ v, raise_free (k v)) → raise_free (Do ev k).

(** The operations of a complete run, given what the two reads answer. *)
Definition plot_mission_trace (nexus nexus_results results : value)
  : list event :=
  [GetAttr nexus "results"; GetAttr nexus_results "base";
   LoadGlobal "plot_aerodynamic_coefficients";
   Call (VFun plot_aerodynamic_coefficients) results;
   LoadGlobal "plot_drag_components";
   Call (VFun plot_drag_components) results;
   LoadGlobal "plot_altitude_sfc_weight";
   Call (VFun plot_altitude_sfc_weight) results].

Definition is_AttributeError (e : exn) : Prop :=
  exn_class e = "AttributeError".

Definition returned {S : Type} (o : outcome S) : Prop :=
  match o with Returns _ _ => True | _ => False end.
Definition terminated {S : Type} (o : outcome S) : Prop :=
  match o with Diverges => False | _ => True end.

Section Expected.
Context `{E : Env}.

(** The value of the expression [nexus.results.base]. *)
Definition nexus_results_base (nexus : value) (w : world) : answer :=
  match attr_read nexus "results" w with
  | Value nexus_results => attr_read nexus_results "base" w
  | a => a
  end.

(** Python's [hasattr], negated: reading the attribute raises an
    [AttributeError]. *)
Definition no_attr (o : value) (name : string) (w : world) : Prop :=
  ∃ e, attr_read o name w = Error e ∧ is_AttributeError e.

(** The library routines [fs], called one after the other on [results];
    the first that does not return ends the sequence.  The result is the
    list of routines entered and how the sequence ends. *)
Fixpoint call_seq (fs : list routine) (results : value) (w : world)
  : list routine * outcome world :=
  match fs with
  | [] => ([], Returns VNone w)
  | f :: fs' =>
      match ext_call f results w with
      | Returns _ w' =>
          let '(entered, o) := call_seq fs' results w' in (f :: entered, o)
      | Raises e w' => ([f], Raises e w')
      | Diverges => ([f], Diverges)
      end
  end.

(** The operations of calling the routines [fs] by their global names. *)
Definition call_events (results : value) (fs : list routine) : list event :=
  fs ≫= λ f, [LoadGlobal (routine_name f); Call (VFun f) results].

(** After the spec's words: load the results, call the three named plot
    functions. *)
Definition load_and_plot (nexus : value) (s : state)
  : list event * outcome state :=
  let '(g, w) := s in
  match attr_read nexus "results" w with
  | Value nexus_results =>
      match attr_read nexus_results "base" w with
      | Value results =>
          let '(entered, o) := call_seq plot_routines results w in
          (GetAttr nexus "results" :: GetAttr nexus_results "base"
             :: call_events results entered,
           with_globals g o)
      | Error e =>
          ([GetAttr nexus "results"; GetAttr nexus_results "base"],
           Raises e s)
      | Hang =>
          ([GetAttr nexus "results"; GetAttr nexus_results "base"],
           Diverges)
      end
  | Error e => ([GetAttr nexus "results"], Raises e s)
  | Hang => ([GetAttr nexus "results"], Diverges)
  end.

(** The namespace an outcome ends in is [g]. *)
Definition keeps_globals (g : gmap string value) (o : outcome state) : Prop :=
  match o with
  | Returns _ (g', _) | Raises _ (g', _) => g' = g
  | Diverges => True
  end.

(** An outcome, with the namespace left aside. *)
Definition outside (o : outcome state) : outcome world :=
  match o with
  | Returns v (_, w) => Returns v w
  | Raises e (_, w) => Raises e w
  | Diverges => Diverges
  end.
End Expected.

(** ** A sample environment

    Plain objects that keep their attributes in a dictionary, and plotting
    routines that draw one figure per call and read [results.segments]
    first.  It instantiates [Env] in the examples below; the statements
    themselves hold in every environment. *)
Module Plain.

Record plain_world : Type := PlainWorld {
  objects : gmap nat (gmap string value);
  figures : list (routine * value);
}.

Definition AttributeError (name : string) : exn :=
  Exn "AttributeError" ("object has no attribute '" +:+ name +:+ "'").

Definition read (o : value) (name : string) (w : plain_world) : answer :=
  match o with
  | VObj l =>
      match objects w !! l ≫= (.!! name) with
      | Some v => Value v
      | None => Error (AttributeError name)
      end
  | _ => Error (AttributeError name)
  end.

Definition write (o : value) (name : string) (v : value) (w : plain_world)
  : outcome plain_world :=
  match o with
  | VObj l =>
      match objects w !! l with
      | Some d =>
          Returns VNone
            (PlainWorld (<[l := <[name := v]> d]> (objects w)) (figures w))
      | None => Raises (AttributeError name) w
      end
  | _ => Raises (AttributeError name) w
  end.

Definition plot (f : routine) (results : value) (w : plain_world)
  : outcome plain_world :=
  match read results "segments" w with
  | Value _ =>
      Returns VNone (PlainWorld (objects w) (figures w ++ [(f, results)]))
  | Error e => Raises e w
  | Hang => Diverges
  end.

#[export] Instance plain_env : Env := {|
  world := plain_world;
  attr_read := read;
  attr_write := write;
  ext_call := plot;
|}.

(** The namespace after the import cell. *)
Definition notebook_globals : gmap string value :=
  list_to_map ((λ f, (routine_name f, VFun f)) <$> plot_routines).

(** A nexus (object 1) whose [results.base] (object 3) has segments. *)
Definition solved : plain_world :=
  PlainWorld
    (list_to_map
       [(1, {["results" := VObj 2]}); (2, {["base" := VObj 3]});
        (3, {["segments" := VObj 4]}); (4, ∅)])
    [].

(** The same, with the three figures drawn. *)
Definition plotted : plain_world :=
  PlainWorld (objects solved) (expected_calls (VObj 3)).

(** A nexus whose [results.base] is there but has no segments yet. *)
Definition unsolved : plain_world :=
  PlainWorld
    (list_to_map
       [(1, {["results" := VObj 2]}); (2, {["base" := VObj 3]}); (3, ∅)])
    [].

(** A nexus that has not been evaluated: no [results] at all. *)
Definition fresh : plain_world := PlainWorld {[1 := ∅]} [].

(** A nexus whose [results] has no [base]. *)
Definition baseless : plain_world :=
  PlainWorld (list_to_map [(1, {["results" := VObj 2]}); (2, ∅)]) [].

(** A second nexus (object 5) sharing the results of the first. *)
Definition shared : plain_world :=
  PlainWorld
    (list_to_map
       [(1, {["results" := VObj 2]}); (2, {["base" := VObj 3]});
        (3, {["segments" := VObj 4]}); (4, ∅);
        (5, {["results" := VObj 2; "vehicle" := VObj 6]})])
    [].

End Plain.

(** ** A library that stops answering

    The sample environment, with a display that holds three figures: a
    plotting routine called when three figures are already drawn never
    returns. *)
Module Late.

Definition plot (f : routine) (results : value) (w : Plain.plain_world)
  : outcome Plain.plain_world :=
  if decide (length (Plain.figures w) < 3) then Plain.plot f results w
  else Diverges.

#[export] Instance late_env : Env := {|
  world := Plain.plain_world;
  attr_read := Plain.read;
  attr_write := Plain.write;
  ext_call := plot;
|}.

End Late.

(** ** Running [plot_mission] *)

(** Case analysis on the answers of the environment, in the goal. *)
Ltac answers :=
  repeat match goal with
    | |- context [attr_read ?o ?n ?w] =>
        lazymatch goal with
        | H : attr_read o n w = _ |- _ => rewrite H
        | _ => destruct (attr_read o n w) eqn:?
        end; cbn
    | |- context [ext_call ?f ?a ?w] =>
        lazymatch goal with
        | H : ext_call f a w = _ |- _ => rewrite H
        | _ => destruct (ext_call f a w) eqn:?
        end; cbn
    end.

(** [Forall] over an explicit list, one element at a time. *)
Ltac each_event tac :=
  repeat (apply Forall_cons; split; [solve [tac]|]); apply Forall_nil_2.

Section Facts.
Context `{E : Env}.
Implicit Types (g : gmap string value) (w : world) (s : state).
Implicit Types (t : list event) (nexus results : value).

(** Running [p] and then [f] on its value is running the two in turn. *)
Lemma run_bind p f s :
  run (bind p f) s =
    match run p s with
    | (t, Returns v s') => let '(t', o) := run (f v) s' in (t ++ t', o)
    | (t, Raises e s') => (t, Raises e s')
    | (t, Diverges) => (t, Diverges)
    end.
Proof.
  revert s. induction p as [v|e|ev k IH|body _ handler _ k IH]; intros s.
  - cbn. by destruct (run (f v) s).
  - done.
  - cbn. destruct (handle ev s) as [v s'| |]; [|done..].
    rewrite IH. destruct (run (k v) s') as [t [v' s''| |]]; [|done..].
    by destruct (run (f v') s'').
  - cbn. destruct (run body s) as [t [v s'|e s'|]]; [| |done].
    + rewrite IH. destruct (run (k v) s') as [t' [v' s''| |]]; [|done..].
      destruct (run (f v') s'') as [t'' o]. by rewrite (assoc_L (++)).
    + destruct (run (handler e) s') as [t' [v s''| |]]; [|done..].
      rewrite IH. destruct (run (k v) s'') as [t'' [v' s3| |]]; [|done..].
      destruct (run (f v') s3) as [t3 o]. by rewrite !(assoc_L (++)).
Qed.

Lemma plot_mission_straight_line nexus :
  straight_line plot_mission_ops (plot_mission nexus).
Proof.
  unfold plot_mission_ops, plot_mission.
  repeat (cbn; lazymatch goal with
               | |- straight_line _ (Do ?ev ?k) =>
                   apply (straight_do ev k); intros ?
               end).
  apply straight_ret.
Qed.

Lemma straight_line_raise_free ops p : straight_line ops p → raise_free p.
Proof. induction 1; constructor; auto. Qed.

(** With the imports in place, [plot_mission] loads the results and calls
    the three routines. *)
Lemma run_plot_mission nexus g w :
  imports_bound g →
  run (plot_mission nexus) (g, w) = load_and_plot nexus (g, w).
Proof.
  intros Hg.
  pose proof (Hg plot_aerodynamic_coefficients) as H1.
  pose proof (Hg plot_drag_components) as H2.
  pose proof (Hg plot_altitude_sfc_weight) as H3.
  cbn in H1, H2, H3. cbn. answers; try done.
  all: rewrite ?H1; cbn; answers; try done.
  all: rewrite ?H2; cbn; answers; try done.
  all: rewrite ?H3; cbn; answers; done.
Qed.

Lemma fmap_prefix_of {A B} (f : A → B) (l1 l2 : list A) :
  l1 `prefix_of` l2 → f <$> l1 `prefix_of` f <$> l2.
Proof. intros [k ->]. exists (f <$> k). apply fmap_app. Qed.

Lemma plot_calls_call_events results fs :
  plot_calls (call_events results fs) = (λ f, (f, results)) <$> fs.
Proof. induction fs as [|f fs IH]; [done|]. cbn. by f_equal. Qed.

Lemma filter_is_call_call_events results fs :
  filter is_call (call_events results fs)
  = (λ f, Call (VFun f) results) <$> fs.
Proof.
  induction fs as [|f fs IH]; [done|].
  change (call_events results (f :: fs)) with
    (LoadGlobal (routine_name f) :: Call (VFun f) results
       :: call_events results fs).
  rewrite filter_cons_False by (cbn; auto).
  rewrite filter_cons_True by done. by rewrite IH.
Qed.

Lemma call_seq_prefix fs results w :
  (call_seq fs results w).1 `prefix_of` fs.
Proof.
  revert w. induction fs as [|f fs IH]; intros w; [done|]. cbn.
  destruct (ext_call f results w) as [v w'| |]; cbn.
  - specialize (IH w'). destruct (call_seq fs results w'). cbn in *.
    by apply prefix_cons.
  - apply prefix_cons, prefix_nil.
  - apply prefix_cons, prefix_nil.
Qed.

Lemma call_seq_returned fs results w :
  returned (call_seq fs results w).2 → (call_seq fs results w).1 = fs.
Proof.
  revert w. induction fs as [|f fs IH]; intros w; [done|]. cbn.
  destruct (ext_call f results w) as [v w'| |]; cbn; [|done..].
  specialize (IH w'). destruct (call_seq fs results w'). cbn in *.
  intros Hr. by rewrite IH.
Qed.

Lemma call_seq_entered f fs results w :
  (call_seq (f :: fs) results w).1 ≠ [].
Proof.
  cbn. destruct (ext_call f results w) as [v w'| |]; [|done..].
  by destruct (call_seq fs results w').
Qed.

Lemma handle_LoadGlobal_terminates name s :
  handle (LoadGlobal name) s ≠ Diverges.
Proof. destruct s as [g w]. cbn. by destruct (g !! name). Qed.

Lemma handle_Call_terminates callee arg s :
  (∀ f w, ext_call f arg w ≠ Diverges) →
  handle (Call callee arg) s ≠ Diverges.
Proof.
  intros Hcalls. destruct s as [g w], callee as [|l|f]; cbn; [done..|].
  specialize (Hcalls f w). by destruct (ext_call f arg w).
Qed.

Lemma outside_with_globals g (o : outcome world) :
  outside (with_globals g o) = o.
Proof. by destruct o. Qed.

Lemma returned_outside (o : outcome state) :
  returned o → returned (outside o).
Proof. by destruct o as [? []|? []|]. Qed.

(** Once the results are loaded, the calls and the way the run ends are
    those of the three routines on the results, in the world as it is. *)
Lemma load_and_plot_calls nexus g w results :
  nexus_results_base nexus w = Value results →
  plot_calls (load_and_plot nexus (g, w)).1
  = (λ f, (f, results)) <$> (call_seq plot_routines results w).1 ∧
  outside (load_and_plot nexus (g, w)).2
  = (call_seq plot_routines results w).2.
Proof.
  unfold nexus_results_base, load_and_plot. intros Hbase.
  destruct (attr_read nexus "results" w) as [nexus_results| |]; [|done..].
  rewrite Hbase.
  destruct (call_seq plot_routines results w) as [entered o]. cbn [fst snd].
  rewrite outside_with_globals. split; [|done].
  change (plot_calls (_ :: _ :: ?l)) with (plot_calls l).
  apply plot_calls_call_events.
Qed.

(** *** Straight-line bodies and the module namespace *)

Lemma run_Do ev k s :
  run (Do ev k) s =
    match handle ev s with
    | Returns v s' => let '(t, o) := run (k v) s' in (ev :: t, o)
    | Raises e s' => ([ev], Raises e s')
    | Diverges => ([ev], Diverges)
    end.
Proof. done. Qed.

Lemma run_straight_line_ops ops p s :
  straight_line ops p → op_of <$> (run p s).1 `prefix_of` ops.
Proof.
  intros Hsl. revert s. induction Hsl as [v|ev k ops _ IH]; intros s.
  - done.
  - cbn. destruct (handle ev s) as [v s'| |]; cbn.
    + specialize (IH v s'). destruct (run (k v) s'). by apply prefix_cons.
    + apply prefix_cons, prefix_nil.
    + apply prefix_cons, prefix_nil.
Qed.

Lemma run_straight_line_no_store ops p s :
  straight_line ops p →
  Forall (λ o, op_is_store o = false) ops →
  Forall (λ ev, is_store ev = false) (run p s).1.
Proof.
  intros Hsl Hops. apply Forall_forall. intros ev Hev.
  destruct (run_straight_line_ops ops p s Hsl) as [rest Hrest].
  rewrite Forall_forall in Hops.
  assert (op_is_store (op_of ev) = false) as Hop.
  { apply Hops. rewrite Hrest. apply elem_of_app. left.
    by apply list_elem_of_fmap_2. }
  by destruct ev.
Qed.

(** An operation other than a global store sees of the namespace only
    the name it loads, and leaves the namespace alone. *)
Lemma handle_same_namespace ev g1 g2 w :
  op_is_store_global (op_of ev) = false →
  (∀ name, op_of ev = OpLoadGlobal name → g1 !! name = g2 !! name) →
  ∃ o, handle ev (g1, w) = with_globals g1 o ∧
       handle ev (g2, w) = with_globals g2 o.
Proof.
  intros Hst Hload. destruct ev as [o name|o name v|name|name v|callee arg];
    cbn in *; try done.
  - destruct (attr_read o name w) as [v|e|];
      [by exists (Returns v w)|by exists (Raises e w)|by exists Diverges].
  - by eexists.
  - rewrite <- (Hload name eq_refl). destruct (g1 !! name) as [v|];
      [by exists (Returns v w)|by exists (Raises (NameError name) w)].
  - destruct callee as [|l|f];
      [by exists (Raises TypeError_not_callable w)..|by eexists].
Qed.

(** A straight-line body without global stores behaves alike in two
    namespaces that agree on the names it loads, and keeps its own. *)
Lemma run_straight_line_namespace ops p g1 g2 w :
  straight_line ops p →
  Forall (λ o, op_is_store_global o = false) ops →
  (∀ name, OpLoadGlobal name ∈ ops → g1 !! name = g2 !! name) →
  (run p (g1, w)).1 = (run p (g2, w)).1 ∧
  outside (run p (g1, w)).2 = outside (run p (g2, w)).2 ∧
  keeps_globals g1 (run p (g1, w)).2.
Proof.
  intros Hsl. revert w. induction Hsl as [v|ev k ops _ IH]; intros w Hst Hld.
  - done.
  - apply Forall_cons in Hst as [Hev Hst].
    destruct (handle_same_namespace ev g1 g2 w Hev) as (o & H1 & H2).
    { intros name Hname. apply Hld. rewrite Hname. apply list_elem_of_here. }
    rewrite !run_Do, H1, H2. destruct o as [v w'|e w'|]; cbn; [|done..].
    destruct (IH v w' Hst) as (Ht & Ho & Hk).
    { intros name Hname. apply Hld. by apply list_elem_of_further. }
    destruct (run (k v) (g1, w')) as [t1 o1], (run (k v) (g2, w')) as [t2 o2].
    cbn in *. by rewrite Ht.
Qed.
End Facts.

(** ** The cell on the sample environment *)

Example run_solved :
  run (E := Plain.plain_env) (plot_mission (VObj 1))
    (Plain.notebook_globals, Plain.solved)
  = (plot_mission_trace (VObj 1) (VObj 2) (VObj 3),
     Returns VNone (Plain.notebook_globals, Plain.plotted)).
Proof. vm_compute. reflexivity. Qed.

Example run_unsolved :
  run (E := Plain.plain_env) (plot_mission (VObj 1))
    (Plain.notebook_globals, Plain.unsolved)
  = ([GetAttr (VObj 1) "results"; GetAttr (VObj 2) "base";
      LoadGlobal "plot_aerodynamic_coefficients";
      Call (VFun plot_aerodynamic_coefficients) (VObj 3)],
     Raises (Plain.AttributeError "segments")
       (Plain.notebook_globals, Plain.unsolved)).
Proof. vm_compute. reflexivity. Qed.

Example run_baseless :
  run (E := Plain.plain_env) (plot_mission (VObj 1))
    (Plain.notebook_globals, Plain.baseless)
  = ([GetAttr (VObj 1) "results"; GetAttr (VObj 2) "base"],
     Raises (Plain.AttributeError "base")
       (Plain.notebook_globals, Plain.baseless)).
Proof. vm_compute. reflexivity. Qed.

(** Without the import cell the first lookup fails, after both reads. *)
Example run_without_imports :
  run (E := Plain.plain_env) (plot_mission (VObj 1)) (∅, Plain.solved)
  = ([GetAttr (VObj 1) "results"; GetAttr (VObj 2) "base";
      LoadGlobal "plot_aerodynamic_coefficients"],
     Raises (NameError "plot_aerodynamic_coefficients") (∅, Plain.solved)).
Proof. vm_compute. reflexivity. Qed.

(** ** The calls made *)

(** C1, as the cell behaves.  With the imports in place and
    [nexus.results.base] evaluating to [results], the library calls made by
    [plot_mission nexus] are [plot_aerodynamic_coefficients results],
    [plot_drag_components results], [plot_altitude_sfc_weight results], in
    this order and each once, up to and including the first of them that
    does not return: the routines after it are not called, and the run ends
    as that call ends.  At least the first call is made; all three are made
    exactly when the first two return; whenever the function returns all
    three have been made; and nothing else is called. *)
Theorem plot_mission_calls `{E : Env} nexus g w results t o :
  imports_bound g →
  nexus_results_base nexus w = Value results →
  run (plot_mission nexus) (g, w) = (t, o) →
  plot_calls t `prefix_of` expected_calls results ∧
  plot_calls t ≠ [] ∧
  (returned o → plot_calls t = expected_calls results) ∧
  filter is_call t = (λ c, Call (VFun c.1) c.2) <$> plot_calls t ∧
  match ext_call plot_aerodynamic_coefficients results w with
  | Returns _ w1 =>
      match ext_call plot_drag_components results w1 with
      | Returns _ w2 =>
          plot_calls t = expected_calls results ∧
          outside o =
            match ext_call plot_altitude_sfc_weight results w2 with
            | Returns _ w3 => Returns VNone w3
            | ended => ended
            end
      | ended =>
          plot_calls t
          = [(plot_aerodynamic_coefficients, results);
             (plot_drag_components, results)] ∧
          outside o = ended
      end
  | ended =>
      plot_calls t = [(plot_aerodynamic_coefficients, results)] ∧
      outside o = ended
  end.
Proof.
  intros Hg Hbase Hrun. rewrite run_plot_mission in Hrun by done.
  unfold load_and_plot, nexus_results_base in *.
  destruct (attr_read nexus "results" w) as [nexus_results| |]; [|done..].
  rewrite Hbase in Hrun. cbn in Hrun.
  destruct (ext_call plot_aerodynamic_coefficients results w)
    as [v1 w1| |]; cbn in Hrun;
    [|simplify_eq; split_and!; try done; by eexists..].
  destruct (ext_call plot_drag_components results w1)
    as [v2 w2| |]; cbn in Hrun;
    [|simplify_eq; split_and!; try done; by eexists..].
  destruct (ext_call plot_altitude_sfc_weight results w2)
    as [v3 w3| |]; cbn in Hrun; simplify_eq; split_and!; done.
Qed.

Lemma imports_bound_notebook_globals : imports_bound Plain.notebook_globals.
Proof. intros []; reflexivity. Defined.

Lemma plot_mission_calls_witness :
  plot_calls (run (E := Plain.plain_env) (plot_mission (VObj 1))
                (Plain.notebook_globals, Plain.unsolved)).1
  = [(plot_aerodynamic_coefficients, VObj 3)] ∧
  outside (run (E := Plain.plain_env) (plot_mission (VObj 1))
             (Plain.notebook_globals, Plain.unsolved)).2
  = Raises (Plain.AttributeError "segments") Plain.unsolved.
Proof.
  destruct (run (E := Plain.plain_env) (plot_mission (VObj 1))
              (Plain.notebook_globals, Plain.unsolved)) as [t o] eqn:Hrun.
  exact (proj2 (proj2 (proj2 (proj2
    (plot_mission_calls (E := Plain.plain_env) (VObj 1)
       Plain.notebook_globals Plain.unsolved (VObj 3) t o
       imports_bound_notebook_globals eq_refl Hrun))))).
Defined.

(** C1, as stated, fails where a plotting routine raises: in the [unsolved]
    world [nexus.results.base] evaluates to object 3, yet only
    [plot_aerodynamic_coefficients] is called. *)
Lemma plot_mission_calls_cut_short :
  imports_bound Plain.notebook_globals ∧
  nexus_results_base (E := Plain.plain_env) (VObj 1) Plain.unsolved
  = Value (VObj 3) ∧
  plot_calls (run (E := Plain.plain_env) (plot_mission (VObj 1))
                (Plain.notebook_globals, Plain.unsolved)).1
  = [(plot_aerodynamic_coefficients, VObj 3)] ∧
  plot_calls (run (E := Plain.plain_env) (plot_mission (VObj 1))
                (Plain.notebook_globals, Plain.unsolved)).1
  ≠ expected_calls (VObj 3).
Proof.
  split_and!; [apply imports_bound_notebook_globals|reflexivity..|].
  vm_compute. discriminate.
Qed.

(** ** Exceptions *)

(** C2.  [plot_mission] has no [raise] and no [try].  With the imports in
    place, an exception raised by either attribute read or by any of the
    three plotting calls is the exception [plot_mission] ends with; and an
    exception [plot_mission] ends with is always one that an attribute read
    or a plotting routine raised. *)
Theorem plot_mission_propagates `{E : Env} nexus g w :
  imports_bound g →
  raise_free (plot_mission nexus) ∧
  (∀ e, attr_read nexus "results" w = Error e →
        (run (plot_mission nexus) (g, w)).2 = Raises e (g, w)) ∧
  (∀ nexus_results e,
     attr_read nexus "results" w = Value nexus_results →
     attr_read nexus_results "base" w = Error e →
     (run (plot_mission nexus) (g, w)).2 = Raises e (g, w)) ∧
  (∀ results,
     nexus_results_base nexus w = Value results →
     (∀ e w1,
        ext_call plot_aerodynamic_coefficients results w = Raises e w1 →
        (run (plot_mission nexus) (g, w)).2 = Raises e (g, w1)) ∧
     (∀ v1 w1 e w2,
        ext_call plot_aerodynamic_coefficients results w = Returns v1 w1 →
        ext_call plot_drag_components results w1 = Raises e w2 →
        (run (plot_mission nexus) (g, w)).2 = Raises e (g, w2)) ∧
     (∀ v1 w1 v2 w2 e w3,
        ext_call plot_aerodynamic_coefficients results w = Returns v1 w1 →
        ext_call plot_drag_components results w1 = Returns v2 w2 →
        ext_call plot_altitude_sfc_weight results w2 = Raises e w3 →
        (run (plot_mission nexus) (g, w)).2 = Raises e (g, w3))) ∧
  (∀ e s',
     (run (plot_mission nexus) (g, w)).2 = Raises e s' →
     (attr_read nexus "results" w = Error e ∧ s' = (g, w)) ∨
     (∃ nexus_results,
        attr_read nexus "results" w = Value nexus_results ∧
        attr_read nexus_results "base" w = Error e ∧ s' = (g, w)) ∨
     (∃ results f w0 w1,
        nexus_results_base nexus w = Value results ∧
        f ∈ plot_routines ∧
        ext_call f results w0 = Raises e w1 ∧ s' = (g, w1))).
Proof.
  intros Hg. rewrite run_plot_mission by done.
  unfold nexus_results_base, load_and_plot. split_and!.
  - eapply straight_line_raise_free, plot_mission_straight_line.
  - by intros e ->.
  - by intros nexus_results e -> ->.
  - intros results Hbase.
    destruct (attr_read nexus "results" w) as [nexus_results| |]; [|done..].
    rewrite Hbase. cbn. split_and!.
    + by intros e w1 ->.
    + by intros v1 w1 e w2 -> ->.
    + by intros v1 w1 v2 w2 e w3 -> -> ->.
  - intros e s'.
    destruct (attr_read nexus "results" w) as [nexus_results| |];
      [|intros; simplify_eq/=; auto..].
    destruct (attr_read nexus_results "base" w) as [results| |] eqn:Hbase;
      [|intros; simplify_eq/=; eauto 6..].
    cbn. intros Hrun. do 2 right. exists results.
    assert (∀ f, f ∈ plot_routines) as Hin by (intros []; set_solver).
    repeat case_match; simplify_eq/=; eauto 10.
Qed.

Lemma plot_mission_propagates_witness :
  (run (E := Plain.plain_env) (plot_mission (VObj 1))
     (Plain.notebook_globals, Plain.unsolved)).2
  = Raises (Plain.AttributeError "segments")
      (Plain.notebook_globals, Plain.unsolved).
Proof.
  refine (proj1 (proj1 (proj2 (proj2 (proj2
    (plot_mission_propagates (E := Plain.plain_env) (VObj 1)
       Plain.notebook_globals Plain.unsolved
       imports_bound_notebook_globals)))) (VObj 3) eq_refl) _ _ eq_refl).
Defined.

(** ** What the cell changes *)

(** C3.  When [plot_mission nexus] returns, the module namespace is as it
    was, no operation it performed assigns anything, every call received
    the value of [nexus.results.base] itself, and the world it leaves is
    the one it found, as changed by the three plotting routines in turn. *)
Theorem plot_mission_frame `{E : Env} nexus g w t v g' w' :
  imports_bound g →
  run (plot_mission nexus) (g, w) = (t, Returns v (g', w')) →
  g' = g ∧
  Forall (λ ev, is_store ev = false) t ∧
  ∃ results v1 w1 v2 w2 v3,
    nexus_results_base nexus w = Value results ∧
    Forall (λ ev, ∀ callee arg, ev = Call callee arg → arg = results) t ∧
    ext_call plot_aerodynamic_coefficients results w = Returns v1 w1 ∧
    ext_call plot_drag_components results w1 = Returns v2 w2 ∧
    ext_call plot_altitude_sfc_weight results w2 = Returns v3 w'.
Proof.
  intros Hg Hrun. rewrite run_plot_mission in Hrun by done.
  unfold load_and_plot, nexus_results_base in *.
  destruct (attr_read nexus "results" w) as [nexus_results| |]; [|done..].
  destruct (attr_read nexus_results "base" w) as [results| |]; [|done..].
  cbn in Hrun.
  destruct (ext_call plot_aerodynamic_coefficients results w)
    as [v1 w1| |] eqn:H1; [|done..].
  destruct (ext_call plot_drag_components results w1)
    as [v2 w2| |] eqn:H2; [|done..].
  destruct (ext_call plot_altitude_sfc_weight results w2)
    as [v3 w3| |] eqn:H3; [|done..].
  cbn in Hrun. simplify_eq. split_and!; [done|by repeat constructor|].
  exists results, v1, w1, v2, w2, v3. split_and!; try done.
  repeat constructor; by intros; simplify_eq.
Qed.

Lemma plot_mission_frame_witness :
  Plain.notebook_globals = Plain.notebook_globals ∧
  Forall (λ ev, is_store ev = false)
    (plot_mission_trace (VObj 1) (VObj 2) (VObj 3)) ∧
  ∃ results v1 w1 v2 w2 v3,
    nexus_results_base (E := Plain.plain_env) (VObj 1) Plain.solved
    = Value results ∧
    Forall (λ ev, ∀ callee arg, ev = Call callee arg → arg = results)
      (plot_mission_trace (VObj 1) (VObj 2) (VObj 3)) ∧
    Plain.plot plot_aerodynamic_coefficients results Plain.solved
    = Returns v1 w1 ∧
    Plain.plot plot_drag_components results w1 = Returns v2 w2 ∧
    Plain.plot plot_altitude_sfc_weight results w2
    = Returns v3 Plain.plotted.
Proof.
  apply (plot_mission_frame (E := Plain.plain_env) (VObj 1)
           Plain.notebook_globals Plain.solved
           (plot_mission_trace (VObj 1) (VObj 2) (VObj 3)) VNone
           Plain.notebook_globals Plain.plotted).
  - apply imports_bound_notebook_globals.
  - vm_compute. reflexivity.
Defined.

(** ** Shape and result *)

(** C4.  [plot_mission] is one straight line of operations: two attribute
    reads, then three times a name lookup and a call, with no [raise], no
    [try] and no choice between continuations.  A run that returns has
    performed exactly these operations, and it returns [None]. *)
Theorem plot_mission_returns_None `{E : Env} nexus g w t v s' :
  run (plot_mission nexus) (g, w) = (t, Returns v s') →
  v = VNone ∧
  op_of <$> t = plot_mission_ops ∧
  straight_line plot_mission_ops (plot_mission nexus).
Proof.
  intros Hrun. cbn in Hrun.
  repeat (case_match; simplify_eq/=; try done).
  split_and!; [done..|apply plot_mission_straight_line].
Qed.

Lemma plot_mission_returns_None_witness :
  VNone = VNone ∧
  op_of <$> plot_mission_trace (VObj 1) (VObj 2) (VObj 3) = plot_mission_ops ∧
  straight_line plot_mission_ops (plot_mission (VObj 1)).
Proof.
  apply (plot_mission_returns_None (E := Plain.plain_env) (VObj 1)
           Plain.notebook_globals Plain.solved
           (plot_mission_trace (VObj 1) (VObj 2) (VObj 3)) VNone
           (Plain.notebook_globals, Plain.plotted)).
  vm_compute. reflexivity.
Defined.

(** ** Where the results come from *)

(** C5.  With the imports in place, [plot_mission] does what
    [load_and_plot] says: it loads the results, then calls the three named
    routines.  The attribute reads it performs are [nexus.results] and
    then [base] of the value read; every call it makes is to one of the
    three routines, on the value of [nexus.results.base]. *)
Theorem plot_mission_loads_results `{E : Env} nexus g w :
  imports_bound g →
  run (plot_mission nexus) (g, w) = load_and_plot nexus (g, w) ∧
  Forall
    (λ ev, ∀ o name, ev = GetAttr o name →
       (o = nexus ∧ name = "results") ∨
       (attr_read nexus "results" w = Value o ∧ name = "base"))
    (run (plot_mission nexus) (g, w)).1 ∧
  Forall
    (λ ev, ∀ callee arg, ev = Call callee arg →
       nexus_results_base nexus w = Value arg ∧
       ∃ f, callee = VFun f ∧ f ∈ plot_routines)
    (run (plot_mission nexus) (g, w)).1.
Proof.
  intros Hg. rewrite run_plot_mission by done. split; [done|].
  assert (∀ f, f ∈ plot_routines) as Hin by (intros []; set_solver).
  unfold load_and_plot, nexus_results_base.
  destruct (attr_read nexus "results" w) as [nexus_results| |] eqn:Hres;
    [|split; each_event ltac:(intros; simplify_eq; auto)..].
  destruct (attr_read nexus_results "base" w) as [results| |] eqn:Hbase;
    [|split; each_event ltac:(intros; simplify_eq; auto)..].
  cbn. answers.
  all: split; each_event ltac:(intros; simplify_eq; eauto).
Qed.

Lemma plot_mission_loads_results_witness :
  run (E := Plain.plain_env) (plot_mission (VObj 1))
    (Plain.notebook_globals, Plain.solved)
  = load_and_plot (E := Plain.plain_env) (VObj 1)
      (Plain.notebook_globals, Plain.solved).
Proof.
  exact (proj1 (plot_mission_loads_results (E := Plain.plain_env) (VObj 1)
                  Plain.notebook_globals Plain.solved
                  imports_bound_notebook_globals)).
Defined.

(** ** State of its own *)

(** C6.  [plot_mission] keeps nothing from one call to the next: it
    performs no assignment, it leaves the module namespace as it found it,
    and of that namespace only the bindings of the three routine names
    matter.  In two namespaces that bind these three names alike, and in the
    same world, it performs the same operations and ends the same way. *)
Theorem plot_mission_stateless `{E : Env} nexus g1 g2 w :
  same_imports g1 g2 →
  (run (plot_mission nexus) (g1, w)).1
  = (run (plot_mission nexus) (g2, w)).1 ∧
  outside (run (plot_mission nexus) (g1, w)).2
  = outside (run (plot_mission nexus) (g2, w)).2 ∧
  keeps_globals g1 (run (plot_mission nexus) (g1, w)).2 ∧
  Forall (λ ev, is_store ev = false) (run (plot_mission nexus) (g1, w)).1.
Proof.
  intros Hg.
  pose proof (plot_mission_straight_line nexus) as Hsl.
  destruct (run_straight_line_namespace plot_mission_ops (plot_mission nexus)
              g1 g2 w Hsl) as (Ht & Ho & Hk).
  { each_event done. }
  { intros name Hname. unfold plot_mission_ops in Hname.
    repeat (apply elem_of_cons in Hname as [Hname|Hname]; [simplify_eq|]).
    - apply (Hg plot_aerodynamic_coefficients).
    - apply (Hg plot_drag_components).
    - apply (Hg plot_altitude_sfc_weight).
    - by apply elem_of_nil in Hname. }
  split_and!; [done..|].
  apply (run_straight_line_no_store plot_mission_ops); [done|].
  each_event done.
Qed.

Lemma plot_mission_stateless_witness :
  (run (E := Plain.plain_env) (plot_mission (VObj 1))
     (Plain.notebook_globals, Plain.solved)).1
  = (run (E := Plain.plain_env) (plot_mission (VObj 1))
       (<["figure_count" := VObj 7]> Plain.notebook_globals, Plain.solved)).1.
Proof.
  refine (proj1 (plot_mission_stateless (E := Plain.plain_env) (VObj 1)
                   Plain.notebook_globals
                   (<["figure_count" := VObj 7]> Plain.notebook_globals)
                   Plain.solved _)).
  intros []; reflexivity.
Defined.

(** ** Dependence on the argument *)

(** C7.  Of its argument, [plot_mission] uses the value of
    [nexus.results.base] and nothing else: the library calls it makes and
    the way it ends are those of the three routines called in turn on that
    object, in the world of the invocation.  Two invocations whose
    [nexus.results.base] is the same object therefore make calls that are
    non-empty initial parts of one and the same sequence, the three
    routines in order on that object.  The sequence is all three calls for
    an invocation that returns; the two sequences are identical when both
    invocations return, when they make the same number of calls, and when
    they start in the same world, where the outcomes agree as well. *)
Theorem plot_mission_depends_on_results_only `{E : Env}
    nexus1 nexus2 g1 g2 w1 w2 results :
  imports_bound g1 → imports_bound g2 →
  nexus_results_base nexus1 w1 = Value results →
  nexus_results_base nexus2 w2 = Value results →
  plot_calls (run (plot_mission nexus1) (g1, w1)).1
    `prefix_of` expected_calls results ∧
  plot_calls (run (plot_mission nexus2) (g2, w2)).1
    `prefix_of` expected_calls results ∧
  (returned (run (plot_mission nexus1) (g1, w1)).2 →
   returned (run (plot_mission nexus2) (g2, w2)).2 →
   plot_calls (run (plot_mission nexus1) (g1, w1)).1
   = plot_calls (run (plot_mission nexus2) (g2, w2)).1) ∧
  (w1 = w2 →
   plot_calls (run (plot_mission nexus1) (g1, w1)).1
   = plot_calls (run (plot_mission nexus2) (g2, w2)).1 ∧
   outside (run (plot_mission nexus1) (g1, w1)).2
   = outside (run (plot_mission nexus2) (g2, w2)).2) ∧
  (plot_calls (run (plot_mission nexus1) (g1, w1)).1
   = (λ f, (f, results)) <$> (call_seq plot_routines results w1).1 ∧
   outside (run (plot_mission nexus1) (g1, w1)).2
   = (call_seq plot_routines results w1).2) ∧
  (plot_calls (run (plot_mission nexus2) (g2, w2)).1
   = (λ f, (f, results)) <$> (call_seq plot_routines results w2).1 ∧
   outside (run (plot_mission nexus2) (g2, w2)).2
   = (call_seq plot_routines results w2).2) ∧
  plot_calls (run (plot_mission nexus1) (g1, w1)).1 ≠ [] ∧
  plot_calls (run (plot_mission nexus2) (g2, w2)).1 ≠ [] ∧
  (returned (run (plot_mission nexus1) (g1, w1)).2 →
   plot_calls (run (plot_mission nexus1) (g1, w1)).1
   = expected_calls results) ∧
  (returned (run (plot_mission nexus2) (g2, w2)).2 →
   plot_calls (run (plot_mission nexus2) (g2, w2)).1
   = expected_calls results) ∧
  (length (plot_calls (run (plot_mission nexus1) (g1, w1)).1)
   = length (plot_calls (run (plot_mission nexus2) (g2, w2)).1) →
   plot_calls (run (plot_mission nexus1) (g1, w1)).1
   = plot_calls (run (plot_mission nexus2) (g2, w2)).1).
Proof.
  intros Hg1 Hg2 Hbase1 Hbase2. rewrite !run_plot_mission by done.
  destruct (load_and_plot_calls nexus1 g1 w1 results Hbase1) as [Hc1 Ho1].
  destruct (load_and_plot_calls nexus2 g2 w2 results Hbase2) as [Hc2 Ho2].
  assert (∀ w, (λ f, (f, results)) <$> (call_seq plot_routines results w).1
               `prefix_of` expected_calls results) as Hpre.
  { intros w. apply fmap_prefix_of, call_seq_prefix. }
  assert (∀ w, (call_seq plot_routines results w).1 ≠ []) as Hne.
  { intros w. apply (call_seq_entered plot_aerodynamic_coefficients). }
  assert (∀ nexus g w,
            outside (load_and_plot nexus (g, w)).2
            = (call_seq plot_routines results w).2 →
            returned (load_and_plot nexus (g, w)).2 →
            (call_seq plot_routines results w).1 = plot_routines) as Hall.
  { intros nexus g w Ho Hr. apply call_seq_returned.
    rewrite <- Ho. by apply returned_outside. }
  rewrite Hc1, Hc2, Ho1, Ho2. split_and!; try done.
  - intros Hr1 Hr2. by rewrite (Hall nexus1 g1 w1), (Hall nexus2 g2 w2).
  - by intros ->.
  - intros Hnil. by apply fmap_nil_inv, Hne in Hnil.
  - intros Hnil. by apply fmap_nil_inv, Hne in Hnil.
  - intros Hr1. by rewrite (Hall nexus1 g1 w1).
  - intros Hr2. by rewrite (Hall nexus2 g2 w2).
  - intros Hlen.
    destruct (prefix_weak_total _ _ _ (Hpre w1) (Hpre w2)) as [H12|H21].
    + apply prefix_length_eq; [done|]. by rewrite Hlen.
    + symmetry. apply prefix_length_eq; [done|]. by rewrite Hlen.
Qed.

Lemma plot_mission_depends_on_results_only_witness :
  plot_calls (run (E := Plain.plain_env) (plot_mission (VObj 1))
                (Plain.notebook_globals, Plain.solved)).1
  = plot_calls (run (E := Plain.plain_env) (plot_mission (VObj 5))
                  (Plain.notebook_globals, Plain.shared)).1.
Proof.
  refine (proj1 (proj2 (proj2
    (plot_mission_depends_on_results_only (E := Plain.plain_env)
       (VObj 1) (VObj 5) Plain.notebook_globals Plain.notebook_globals
       Plain.solved Plain.shared (VObj 3)
       imports_bound_notebook_globals imports_bound_notebook_globals
       eq_refl eq_refl))) _ _); vm_compute; exact I.
Defined.

(** ** Termination *)

(** C8.  [run] is a total function on bodies, which are finite trees: a
    body has no loop and no recursion.  If the evaluation of
    [nexus.results.base] does not hang, and each plotting call that is
    made does not hang in the world it is made in, [plot_mission nexus]
    ends, by returning or by raising.  The calls made are: the routine
    bound to the first name, on the results, in the world of the
    invocation; if it returns, the routine bound to the second name, in
    the world the first left; if that returns, the routine bound to the
    third name, in the world the second left.  With the imports in place
    these are the three routines of those names. *)
Theorem plot_mission_terminates `{E : Env} nexus g w :
  nexus_results_base nexus w ≠ Hang →
  (∀ results,
     nexus_results_base nexus w = Value results →
     ∀ f1,
       g !! "plot_aerodynamic_coefficients" = Some (VFun f1) →
       ext_call f1 results w ≠ Diverges ∧
       ∀ v1 w1 f2,
         ext_call f1 results w = Returns v1 w1 →
         g !! "plot_drag_components" = Some (VFun f2) →
         ext_call f2 results w1 ≠ Diverges ∧
         ∀ v2 w2 f3,
           ext_call f2 results w1 = Returns v2 w2 →
           g !! "plot_altitude_sfc_weight" = Some (VFun f3) →
           ext_call f3 results w2 ≠ Diverges) →
  terminated (run (plot_mission nexus) (g, w)).2.
Proof.
  unfold nexus_results_base. intros Hbase Hcalls. cbn.
  destruct (attr_read nexus "results" w) as [nexus_results| |];
    cbn; [|done..].
  destruct (attr_read nexus_results "base" w) as [results| |];
    cbn; [|done..].
  specialize (Hcalls results eq_refl).
  destruct (g !! "plot_aerodynamic_coefficients") as [[|l1|f1]|];
    cbn; try done.
  destruct (Hcalls f1 eq_refl) as [Hend1 Hnext1].
  destruct (ext_call f1 results w) as [v1 w1| |]; cbn; try done.
  destruct (g !! "plot_drag_components") as [[|l2|f2]|]; cbn; try done.
  destruct (Hnext1 v1 w1 f2 eq_refl eq_refl) as [Hend2 Hnext2].
  destruct (ext_call f2 results w1) as [v2 w2| |]; cbn; try done.
  destruct (g !! "plot_altitude_sfc_weight") as [[|l3|f3]|]; cbn; try done.
  pose proof (Hnext2 v2 w2 f3 eq_refl eq_refl) as Hend3.
  destruct (ext_call f3 results w2) as [v3 w3| |]; cbn; done.
Qed.

(** In the [Late] library a routine hangs in some worlds, but none of the
    three calls of this run is made in such a world. *)
Example late_plot_hangs :
  @ext_call Late.late_env plot_aerodynamic_coefficients (VObj 3)
    Plain.plotted
  = Diverges.
Proof. reflexivity. Qed.

Lemma plot_mission_terminates_witness :
  terminated (run (E := Late.late_env) (plot_mission (VObj 1))
                (Plain.notebook_globals, Plain.solved)).2.
Proof.
  apply (plot_mission_terminates (E := Late.late_env)).
  - vm_compute. discriminate.
  - intros results Hres f1 Hf1. vm_compute in Hres, Hf1. simplify_eq.
    split; [vm_compute; discriminate|].
    intros v1 w1 f2 H1 Hf2. vm_compute in H1, Hf2. simplify_eq.
    split; [vm_compute; discriminate|].
    intros v2 w2 f3 H2 Hf3. vm_compute in H2, Hf3. simplify_eq.
    vm_compute. discriminate.
Defined.

(** ** Missing attributes *)

(** C9.  If [nexus] has no [results] attribute, or [nexus.results] has no
    [base] attribute, [plot_mission nexus] ends with the [AttributeError]
    of that read, in the state it started in; the operations it has
    performed are attribute reads only: no name is looked up and no
    routine is called. *)
Theorem plot_mission_missing_attribute `{E : Env} nexus g w :
  no_attr nexus "results" w ∨
  (∃ nexus_results,
     attr_read nexus "results" w = Value nexus_results ∧
     no_attr nexus_results "base" w) →
  ∃ t e,
    run (plot_mission nexus) (g, w) = (t, Raises e (g, w)) ∧
    is_AttributeError e ∧
    Forall (λ ev, is_attr_read ev = true) t ∧
    plot_calls t = [] ∧
    filter is_call t = [].
Proof.
  intros [(e & Hres & He)|(nexus_results & Hres & e & Hbase & He)].
  - exists [GetAttr nexus "results"], e. cbn. rewrite Hres.
    split_and!; try done. each_event done.
  - exists [GetAttr nexus "results"; GetAttr nexus_results "base"], e.
    cbn. rewrite Hres. cbn. rewrite Hbase.
    split_and!; try done. each_event done.
Qed.

Lemma plot_mission_missing_attribute_witness :
  ∃ t e,
    run (E := Plain.plain_env) (plot_mission (VObj 1))
      (Plain.notebook_globals, Plain.fresh)
    = (t, Raises e (Plain.notebook_globals, Plain.fresh)) ∧
    is_AttributeError e ∧
    Forall (λ ev, is_attr_read ev = true) t ∧
    plot_calls t = [] ∧
    filter is_call t = [].
Proof.
  apply (plot_mission_missing_attribute (E := Plain.plain_env)).
  left. exists (Plain.AttributeError "results"). split; reflexivity.
Defined.


(** * Beyond the claims: missing names, hanging calls, repeated calls *)

(** ** Names that are not bound *)

(** X3.  A routine whose name is not bound in the namespace: the names are
    looked up one by one, each just before its call.  If the results load,
    the routines before [f] are bound and return, and the name of [f] is
    unbound, [plot_mission] ends with the [NameError] of that name in the
    world the earlier routines left; exactly the earlier routines have been
    called. *)
Theorem plot_mission_missing_import `{E : Env}
    nexus g w results before f after v w' :
  plot_routines = before ++ f :: after →
  (∀ f', f' ∈ before → g !! routine_name f' = Some (VFun f')) →
  g !! routine_name f = None →
  nexus_results_base nexus w = Value results →
  call_seq before results w = (before, Returns v w') →
  (run (plot_mission nexus) (g, w)).2
  = Raises (NameError (routine_name f)) (g, w') ∧
  plot_calls (run (plot_mission nexus) (g, w)).1
  = (λ f', (f', results)) <$> before.
Proof.
  intros Hsplit Hbound Hnone Hbase Hseq. unfold nexus_results_base in Hbase.
  destruct (attr_read nexus "results" w) as [nexus_results| |] eqn:Hres;
    [|done..].
  unfold plot_routines in Hsplit.
  destruct before as [|a [|b [|c before]]]; simplify_eq/=.
  - rewrite Hres. cbn. rewrite Hbase. cbn. by rewrite Hnone.
  - pose proof (Hbound plot_aerodynamic_coefficients) as H1. cbn in H1.
    rewrite Hres. cbn. rewrite Hbase. cbn. rewrite H1 by set_solver. cbn.
    destruct (ext_call plot_aerodynamic_coefficients results w)
      as [v1 w1| |]; simplify_eq/=.
    by rewrite Hnone.
  - pose proof (Hbound plot_aerodynamic_coefficients) as H1.
    pose proof (Hbound plot_drag_components) as H2. cbn in H1, H2.
    rewrite Hres. cbn. rewrite Hbase. cbn. rewrite H1 by set_solver. cbn.
    destruct (ext_call plot_aerodynamic_coefficients results w)
      as [v1 w1| |]; simplify_eq/=.
    rewrite H2 by set_solver. cbn.
    destruct (ext_call plot_drag_components results w1)
      as [v2 w2| |]; simplify_eq/=.
    by rewrite Hnone.
  - by destruct before.
Qed.

Lemma plot_mission_missing_import_witness :
  (run (E := Plain.plain_env) (plot_mission (VObj 1))
     (delete "plot_drag_components" Plain.notebook_globals, Plain.solved)).2
  = Raises (NameError "plot_drag_components")
      (delete "plot_drag_components" Plain.notebook_globals,
       Plain.PlainWorld (Plain.objects Plain.solved)
         [(plot_aerodynamic_coefficients, VObj 3)]).
Proof.
  refine (proj1
    (plot_mission_missing_import (E := Plain.plain_env) (VObj 1)
       (delete "plot_drag_components" Plain.notebook_globals) Plain.solved
       (VObj 3) [plot_aerodynamic_coefficients] plot_drag_components
       [plot_altitude_sfc_weight] VNone
       (Plain.PlainWorld (Plain.objects Plain.solved)
          [(plot_aerodynamic_coefficients, VObj 3)])
       eq_refl _ eq_refl eq_refl eq_refl)).
  intros f' Hf'. apply list_elem_of_singleton in Hf' as ->. reflexivity.
Defined.

(** ** Hanging *)

(** X4.  With the imports in place, [plot_mission] hangs exactly when the
    evaluation of [nexus.results.base] hangs or the three routines, called
    in turn on the results, hang: it has no guard of its own against a
    routine that does not return, and no way of its own to hang. *)
Theorem plot_mission_hangs_iff `{E : Env} nexus g w :
  imports_bound g →
  (run (plot_mission nexus) (g, w)).2 = Diverges ↔
  nexus_results_base nexus w = Hang ∨
  ∃ results,
    nexus_results_base nexus w = Value results ∧
    (call_seq plot_routines results w).2 = Diverges.
Proof.
  intros Hg. rewrite run_plot_mission by done.
  unfold load_and_plot, nexus_results_base.
  destruct (attr_read nexus "results" w) as [nexus_results| |]; cbn [snd];
    [|split; [intros ?; simplify_eq; eauto
             |intros [?|(r & ? & ?)]; by simplify_eq]..].
  destruct (attr_read nexus_results "base" w) as [results| |]; cbn [snd];
    [|split; [intros ?; simplify_eq; eauto
             |intros [?|(r & ? & ?)]; by simplify_eq]..].
  split.
  - intros Hrun. right. exists results. split; [done|].
    by destruct (call_seq plot_routines results w) as [entered [| |]].
  - intros [?|(r & ? & Hseq)]; simplify_eq.
    destruct (call_seq plot_routines r w) as [entered o].
    cbn in Hseq. by subst.
Qed.

Lemma plot_mission_hangs_iff_witness :
  (run (E := Plain.plain_env) (plot_mission (VObj 1))
     (Plain.notebook_globals, Plain.solved)).2 = Diverges ↔
  nexus_results_base (E := Plain.plain_env) (VObj 1) Plain.solved = Hang ∨
  ∃ results,
    nexus_results_base (E := Plain.plain_env) (VObj 1) Plain.solved
    = Value results ∧
    (call_seq (E := Plain.plain_env) plot_routines results Plain.solved).2
    = Diverges.
Proof.
  apply (plot_mission_hangs_iff (E := Plain.plain_env)).
  apply imports_bound_notebook_globals.
Defined.

(** ** Calling the function again *)

(** X6.  Two calls in a row, [plot_mission(nexus1); plot_mission(nexus2)],
    with the imports in place.  If the first call returns, the second runs
    in the same namespace and in the world the first one left (what the
    routines drew is still there), and the operations of both are
    performed; if the first does not return, the second is not started. *)
Theorem plot_mission_twice `{E : Env} nexus1 nexus2 g w t1 o1 :
  imports_bound g →
  run (plot_mission nexus1) (g, w) = (t1, o1) →
  run (exec plot_mission nexus1 ;; plot_mission nexus2) (g, w)
  = match o1 with
    | Returns _ (_, w1) =>
        let '(t2, o2) := run (plot_mission nexus2) (g, w1) in (t1 ++ t2, o2)
    | _ => (t1, o1)
    end.
Proof.
  intros Hg Hrun. rewrite run_bind.
  pose proof (plot_mission_straight_line nexus1) as Hsl.
  destruct (run_straight_line_namespace plot_mission_ops
              (plot_mission nexus1) g g w Hsl) as (_ & _ & Hkeep);
    [each_event done|done|].
  rewrite Hrun in *.
  destruct o1 as [v [g' w1]|e s'|]; [|done..]. cbn in Hkeep. by subst g'.
Qed.

Lemma plot_mission_twice_witness :
  run (E := Plain.plain_env)
    (exec plot_mission (VObj 1) ;; plot_mission (VObj 5))
    (Plain.notebook_globals, Plain.shared)
  = let '(t2, o2) :=
      run (E := Plain.plain_env) (plot_mission (VObj 5))
        (Plain.notebook_globals,
         Plain.PlainWorld (Plain.objects Plain.shared)
           (expected_calls (VObj 3)))
    in (plot_mission_trace (VObj 1) (VObj 2) (VObj 3) ++ t2, o2).
Proof.
  apply (plot_mission_twice (E := Plain.plain_env) (VObj 1) (VObj 5)
           Plain.notebook_globals Plain.shared
           (plot_mission_trace (VObj 1) (VObj 2) (VObj 3))
           (Returns VNone
              (Plain.notebook_globals,
               Plain.PlainWorld (Plain.objects Plain.shared)
                 (expected_calls (VObj 3))))).
  - apply imports_bound_notebook_globals.
  - vm_compute. reflexivity.
Defined.
